(** * Basis verifier ([basis_of], src/self_function.py)

    A shallow embedding of [basis_of] and of the matrix provider it
    delegates to, followed by the properties of the verifier.

    - [Py]: the dynamically typed arguments, the exceptions and the
      effect monad (diagnostic output and provider calls are recorded in
      a trace, exceptions abort the run).
    - [Verifier]: [basis_of] itself, over an arbitrary matrix provider.
    - [FieldMatrix]: the matrix provider over a field, with the rank of
      MathComp's [mxalgebra].
*)

From HB Require Import structures.
From mathcomp Require Import boot algebra.
From Stdlib Require Import ZArith String Ascii Lia.

Set Implicit Arguments.
Unset Strict Implicit.
Unset Printing Implicit Defensive.

(* ===================================================================== *)
(** ** Python values, exceptions, traces *)
(* ===================================================================== *)

Module Py.

(** An argument as the caller may pass it: [None], a [Matrix], or some
    other object (an integer or a string stand for those). *)
Inductive value (Matrix : Type) : Type :=
| VNone
| VInt (z : Z)
| VStr (s : string)
| VMatrix (M : Matrix).

Arguments VNone {Matrix}.
Arguments VInt {Matrix} z.
Arguments VStr {Matrix} s.

(** [isinstance(x, Matrix)] *)
Definition isinstance_Matrix {Matrix} (x : value Matrix) : bool :=
  if x is VMatrix _ then true else false.

(** [x is None] *)
Definition is_None {Matrix} (x : value Matrix) : bool :=
  if x is VNone then true else false.

(** The exceptions of a run: the two raised by [basis_of] itself, and the
    provider's own when two matrices cannot be joined. *)
Inductive exn : Type :=
| TypeError (msg : string)
| ValueError (msg : string)
| ShapeError.

Inductive outcome (A : Type) : Type :=
| Return (a : A)
| Raise (e : exn).

Arguments Raise {A} e.

(** A piece of an f-string: literal text, an interpolated number, or the
    interpolated result of [M.rref()]. *)
Inductive frag (Matrix : Type) : Type :=
| Txt (s : string)
| Num (n : nat)
| RrefOf (M : Matrix).

Arguments Txt {Matrix} s.
Arguments Num {Matrix} n.

(** What a run does besides returning: lines printed and provider
    operations called, in order. *)
Inductive event (Matrix : Type) : Type :=
| Printed (line : seq (frag Matrix))
| CallEye (n : nat)
| CallRank (M : Matrix)
| CallIndep (M : Matrix) (colspace : bool)
| CallRref (M : Matrix)
| CallRowJoin (A B : Matrix).

Arguments CallEye {Matrix} n.

Section Monad.

Variable Matrix : Type.

Definition io (A : Type) : Type := (seq (event Matrix) * outcome A)%type.

Definition ret {A} (a : A) : io A := ([::], Return a).

Definition raise {A} (e : exn) : io A := ([::], Raise e).

Definition bind {A B} (m : io A) (k : A -> io B) : io B :=
  match m with
  | (t, Return a) => let: (t', r) := k a in (t ++ t', r)
  | (t, Raise e) => (t, Raise e)
  end.

Definition emit (e : event Matrix) : io unit := ([:: e], Return tt).

(** [print(...)] of one line *)
Definition print (line : seq (frag Matrix)) : io unit := emit (Printed line).

(** [if c: body] with nothing after it in the branch *)
Definition when (c : bool) (body : io unit) : io unit :=
  if c then body else ret tt.

Definition trace {A} (m : io A) : seq (event Matrix) := m.1.
Definition result {A} (m : io A) : outcome A := m.2.

End Monad.

Arguments ret {Matrix A} a.
Arguments raise {Matrix A} e.

(** [s * n] on strings *)
Fixpoint str_mul (s : string) (n : nat) : string :=
  if n is n'.+1 then (s ++ str_mul s n')%string else EmptyString.

(** ["\n"] *)
Definition nl : string := String (ascii_of_nat 10) EmptyString.

End Py.

Declare Scope io_scope.
Delimit Scope io_scope with io.
Notation "x <- m ;; k" := (Py.bind m (fun x => k))
  (at level 100, m at next level, right associativity) : io_scope.
Notation "m ;; k" := (Py.bind m (fun _ => k))
  (at level 100, right associativity) : io_scope.

(* ===================================================================== *)
(** ** The matrix provider (the [Matrix] class of [ma1522]) *)
(* ===================================================================== *)

(** The operations of [Matrix] that [basis_of] uses.  [rref] has no field:
    its result is only ever interpolated into a printed line, which the
    trace records as [CallRref] and [RrefOf]. *)
Record provider : Type := Provider {
  Matrix : Type;
  rows : Matrix -> nat;                              (* M.rows *)
  cols : Matrix -> nat;                              (* M.cols *)
  eye : nat -> Matrix;                               (* Matrix.eye(n) *)
  rank : Matrix -> nat;                              (* M.rank() *)
  is_linearly_independent : Matrix -> bool -> bool;  (* M.is_linearly_independent(colspace=c, verbosity=0) *)
  row_join : Matrix -> Matrix -> option Matrix       (* A.row_join(B); None: the provider raises *)
}.

(* ===================================================================== *)
(** ** [basis_of] *)
(* ===================================================================== *)

Module Verifier.

Import Py.

Section Verifier.

Variable P : provider.

Local Notation Matrix := (Matrix P).
Local Notation value := (value Matrix).
Local Notation io := (io Matrix).

Local Open Scope io_scope.
Local Open Scope string_scope.

(** Provider calls, each leaving its event in the trace. *)
Definition call_eye (n : nat) : io Matrix :=
  emit (CallEye n) ;; ret (eye P n).

Definition call_rank (M : Matrix) : io nat :=
  emit (CallRank M) ;; ret (rank M).

Definition call_is_linearly_independent (M : Matrix) (colspace : bool) : io bool :=
  emit (CallIndep M colspace) ;; ret (is_linearly_independent M colspace).

Definition call_rref (M : Matrix) : io (frag Matrix) :=
  emit (CallRref M) ;; ret (RrefOf M).

Definition call_row_join (A B : Matrix) : io Matrix :=
  emit (CallRowJoin A B) ;;
  if row_join A B is Some C then ret C else raise ShapeError.

(** ["="*60] *)
Definition banner : string := str_mul "=" 60.

(** [basis_of(T, V=None, verbosity=0)], statement by statement.  An early
    [return False] is the end of its branch; the code after the [if] is
    the [else] branch. *)
Definition basis_of (T V : value) (verbosity : Z) : io bool :=
  if T is VMatrix T then
    V <- (if V is VNone then
            let n := rows T in
            V <- call_eye n ;;
            when (1 <=? verbosity)%Z
              (print [:: Txt "✓ Vector space V not provided, defaulting to R^"; Num n]) ;;
            ret (VMatrix V)
          else ret V) ;;
    if V is VMatrix V then
      if rows T != rows V then
        raise (ValueError "T and V must have the same number of rows")
      else
        when (1 <=? verbosity)%Z
          (print [:: Txt banner] ;;
           print [:: Txt "Checking if T is a basis for V"] ;;
           print [:: Txt banner]) ;;
        dim_V <- call_rank V ;;
        let num_vectors_T := cols T in
        when (1 <=? verbosity)%Z
          (print [:: Txt nl; Txt "1. Dimension Check:"] ;;
           print [:: Txt "   - dim(V) = rank(V) = "; Num dim_V] ;;
           print [:: Txt "   - Number of vectors in T = "; Num num_vectors_T]) ;;
        if num_vectors_T != dim_V then
          when (1 <=? verbosity)%Z
            (print [:: Txt "   ✗ FAIL: T has "; Num num_vectors_T;
                       Txt " vectors but needs exactly "; Num dim_V; Txt " vectors"] ;;
             print [:: Txt nl; Txt banner] ;;
             print [:: Txt "Result: T is NOT a basis for V"] ;;
             print [:: Txt "Reason: Wrong number of vectors (need "; Num dim_V;
                       Txt ", have "; Num num_vectors_T; Txt ")"] ;;
             print [:: Txt banner]) ;;
          ret false
        else
          when (1 <=? verbosity)%Z
            (print [:: Txt "   ✓ PASS: T has the correct number of vectors (";
                       Num dim_V; Txt ")"]) ;;
          when (1 <=? verbosity)%Z
            (print [:: Txt nl; Txt "2. Linear Independence Check:"]) ;;
          is_independent <- call_is_linearly_independent T true ;;
          if ~~ is_independent then
            when (1 <=? verbosity)%Z
              (print [:: Txt "   ✗ FAIL: Vectors in T are linearly dependent"] ;;
               when (2 <=? verbosity)%Z
                 (print [:: Txt nl; Txt "   Computing RREF to show dependence:"] ;;
                  rref <- call_rref T ;;
                  print [:: Txt "   RREF(T) ="] ;;
                  print [:: Txt "   "; rref]) ;;
               print [:: Txt nl; Txt banner] ;;
               print [:: Txt "Result: T is NOT a basis for V"] ;;
               print [:: Txt "Reason: Vectors are linearly dependent"] ;;
               print [:: Txt banner]) ;;
            ret false
          else
            when (1 <=? verbosity)%Z
              (print [:: Txt "   ✓ PASS: Vectors in T are linearly independent"] ;;
               when (2 <=? verbosity)%Z
                 (rref <- call_rref T ;;
                  print [:: Txt nl; Txt "   RREF(T) shows pivot in each column:"] ;;
                  print [:: Txt "   "; rref])) ;;
            when (1 <=? verbosity)%Z
              (print [:: Txt nl; Txt "3. Spanning Check:"] ;;
               print [:: Txt "   - Checking if T spans V"]) ;;
            combined <- call_row_join T V ;;
            rank_combined <- call_rank combined ;;
            when (2 <=? verbosity)%Z
              (rank_T <- call_rank T ;;
               print [:: Txt "   - rank(T) = "; Num rank_T] ;;
               print [:: Txt "   - rank([T | V]) = "; Num rank_combined] ;;
               print [:: Txt "   - If rank([T | V]) = rank(T), then T spans V"]) ;;
            if rank_combined != dim_V then
              when (1 <=? verbosity)%Z
                (print [:: Txt "   ✗ FAIL: T does not span V"] ;;
                 print [:: Txt "   rank([T | V]) = "; Num rank_combined; Txt " ≠ ";
                           Num dim_V; Txt " = dim(V)"] ;;
                 print [:: Txt nl; Txt banner] ;;
                 print [:: Txt "Result: T is NOT a basis for V"] ;;
                 print [:: Txt "Reason: T does not span V"] ;;
                 print [:: Txt banner]) ;;
              ret false
            else
              when (1 <=? verbosity)%Z
                (print [:: Txt "   ✓ PASS: T spans V (rank([T | V]) = rank(T) = ";
                           Num dim_V; Txt ")"] ;;
                 print [:: Txt nl; Txt banner] ;;
                 print [:: Txt "✓ Result: T IS a basis for V"] ;;
                 print [:: Txt banner] ;;
                 print [:: Txt nl; Txt "Proof Summary:"] ;;
                 print [:: Txt "  1. T has exactly "; Num dim_V;
                           Txt " vectors (dimension of V)"] ;;
                 print [:: Txt "  2. The vectors in T are linearly independent"] ;;
                 print [:: Txt "  3. T spans V"] ;;
                 print [:: Txt "Therefore, T forms a basis for V. ∎"] ;;
                 print [:: Txt banner]) ;;
              ret true
    else raise (TypeError "V must be a Matrix object")
  else raise (TypeError "T must be a Matrix object").

(** *** The run with its diagnostic output erased *)

(** The three checks on two matrices, as the spec lists them in 4.1, with
    the provider's independence test. *)
Definition checks (T V : Matrix) : outcome bool :=
  if rows T != rows V then
    Raise (ValueError "T and V must have the same number of rows")
  else if cols T != rank V then Return false
  else if ~~ is_linearly_independent T true then Return false
  else if row_join T V is Some combined then Return (rank combined == rank V)
  else Raise ShapeError.

(** [V] once the default has been substituted. *)
Definition resolve_V (T : Matrix) (V : value) : value :=
  if V is VNone then VMatrix (eye P (rows T)) else V.

Definition decision (T V : value) : outcome bool :=
  if T is VMatrix T then
    if resolve_V T V is VMatrix V then checks T V
    else Raise (TypeError "V must be a Matrix object")
  else Raise (TypeError "T must be a Matrix object").

(** Which events are provider computations (rank, RREF, independence,
    concatenation, identity). *)
Definition is_call (e : event Matrix) : bool :=
  if e is Printed _ then false else true.

Definition calls (t : seq (event Matrix)) : seq (event Matrix) :=
  [seq e <- t | is_call e].

(** *** What a trace shows *)

(** The lines printed, without the provider calls. *)
Definition output (t : seq (event Matrix)) : seq (event Matrix) :=
  [seq e <- t | ~~ is_call e].

Definition is_rref_call (e : event Matrix) : bool :=
  if e is CallRref _ then true else false.

(** The event is the printing of the line made of the text [s] alone. *)
Definition prints_line (s : string) (e : event Matrix) : bool :=
  if e is Printed [:: Txt s'] then String.eqb s s' else false.

(** The run returns the boolean [b]. *)
Definition returns (b : bool) (m : io bool) : bool :=
  if result m is Return b' then b' == b else false.

(** The level a verbosity stands for: nothing, the summary, the details. *)
Definition level (verbosity : Z) : Z :=
  if (2 <=? verbosity)%Z then 2%Z else if (1 <=? verbosity)%Z then 1%Z else 0%Z.

(** *** The verifier as the spec words it (section 4.1)

    [is_basis(T, V?, verbosity) -> bool]: the error conditions, the
    default for an absent [V], then the steps of the algorithm, with
    independence decided by comparing [rank(T)] with [cols(T)]. *)
Definition is_basis (T V : value) : outcome bool :=
  if T is VMatrix T then
    let V := if V is VNone then VMatrix (eye P (rows T)) else V in
    if V is VMatrix V then
      if rows T != rows V then
        Raise (ValueError "T and V must have the same number of rows")
      else
        let dim_V := rank V in
        if cols T != dim_V then Return false
        else if rank T != cols T then Return false
        else if row_join T V is Some T_V then
          if rank T_V != dim_V then Return false else Return true
        else Raise ShapeError
    else Raise (TypeError "V must be a Matrix object")
  else Raise (TypeError "T must be a Matrix object").

End Verifier.

Arguments basis_of : clear implicits.
Arguments checks : clear implicits.
Arguments resolve_V : clear implicits.
Arguments decision : clear implicits.
Arguments is_basis : clear implicits.
Arguments output {P} t.
Arguments is_rref_call {P} e.
Arguments prints_line {P} s e.
Arguments returns {P} b m.

End Verifier.

(* ===================================================================== *)
(** ** Matrices over a field as the provider *)
(* ===================================================================== *)

Module FieldMatrix.

Section FieldMatrix.

Variable F : fieldType.

Local Open Scope ring_scope.

(** Modelled from the spec: the [Matrix] class of [ma1522], which is not
    among the sources.  Spec section 3: a 2D numeric array with [rows],
    [cols], [rank()], [row_join(other)], [is_linearly_independent()] and
    a static identity-matrix constructor. *)
Record matrix : Type := Mx {
  nrows : nat;
  ncols : nat;
  entries : 'M[F]_(nrows, ncols)
}.

(** Modelled from the spec: [Matrix.eye(n)], the identity matrix of size
    [n]. *)
Definition mx_eye (n : nat) : matrix := Mx (1%:M : 'M[F]_n).

(** Modelled from the spec: [M.rank()], the dimension of the column
    space of [M] (glossary, Rank). *)
Definition mx_rank (M : matrix) : nat := \rank (entries M)^T.

(** Modelled from the spec: [M.is_linearly_independent(colspace=c)],
    linear independence of the columns of [M] (of its rows when the flag
    is off): no vector other than zero is sent to zero. *)
Definition mx_is_linearly_independent (M : matrix) (colspace : bool) : bool :=
  if colspace then kermx (entries M)^T == 0 else kermx (entries M) == 0.

(** Modelled from the spec: [A.row_join(B)], the horizontal concatenation
    [A | B], defined when the two have as many rows. *)
Definition mx_row_join (A B : matrix) : option matrix :=
  if nrows B =P nrows A is ReflectT e then
    Some (Mx (row_mx (entries A) (castmx (e, erefl) (entries B))))
  else None.

Definition field_provider : provider :=
  @Provider matrix nrows ncols mx_eye mx_rank mx_is_linearly_independent
            mx_row_join.

(** [M] with its columns [i] and [j] exchanged. *)
Definition col_swap (M : matrix) (i j : 'I_(ncols M)) : matrix :=
  Mx (xcol i j (entries M)).
End FieldMatrix.

End FieldMatrix.

(* ===================================================================== *)
(** ** Properties of [basis_of] over any provider *)
(* ===================================================================== *)

Import Py Verifier.

(** Unfolds a run down to pairs of a trace and an outcome. *)
Ltac unfold_run :=
  rewrite /basis_of /call_eye /call_rank /call_is_linearly_independent
          /call_rref /call_row_join /when /print /emit /bind /ret /raise
          /result /trace /=.

(** Splits a run on the tests that [basis_of] makes on two matrices. *)
Ltac split_checks T V :=
  (case: (rows T != rows V) => //=);
  (case: (cols T != rank V) => //=);
  (case: (is_linearly_independent T true) => //=);
  (case: (row_join T V) => [?|] //=).

Section AnyProvider.

Variable P : provider.

Local Notation Matrix := (Matrix P).
Local Notation value := (value Matrix).
Local Open Scope string_scope.

(** The outcome of a run is the decision, whatever the verbosity. *)
Lemma result_basis_of (T V : value) (v : Z) :
  result (basis_of P T V v) = decision P T V.
Proof.
rewrite /decision /checks; unfold_run.
case: T => [|z|s|T] //=.
case: V => [|z|s|V] //=; [set V := eye P _|];
  case: (1 <=? v)%Z; case: (2 <=? v)%Z => //=;
  split_checks T V; by case: (rank _ == rank V).
Qed.

(** C2. Omitting [V] gives the same outcome as passing the identity
    matrix of size [rows T], at every verbosity level. *)
Theorem omitted_V_is_identity (T : Matrix) (v : Z) :
  result (basis_of P (VMatrix T) VNone v)
  = result (basis_of P (VMatrix T) (VMatrix (eye P (rows T))) v).
Proof. by rewrite !result_basis_of. Qed.

(** C3. When [T] is not a [Matrix], or [V] is supplied and is not a
    [Matrix], the run is a [TypeError] with an empty trace: nothing was
    computed or printed before it.  When [T] is a [Matrix] and [V] is a
    [Matrix] or omitted, the run is not a [TypeError]. *)
Theorem type_errors (T V : value) (v : Z) :
  (~~ isinstance_Matrix T ->
     basis_of P T V v = ([::], Raise (TypeError "T must be a Matrix object")))
  /\ (isinstance_Matrix T -> ~~ is_None V -> ~~ isinstance_Matrix V ->
     basis_of P T V v = ([::], Raise (TypeError "V must be a Matrix object")))
  /\ (isinstance_Matrix T -> is_None V || isinstance_Matrix V ->
     forall msg, result (basis_of P T V v) <> Raise (TypeError msg)).
Proof.
split; [|split].
- by case: T.
- by case: T => //= T _; case: V.
- case: T => // T _ V_ok msg; rewrite result_basis_of /decision /checks.
  have [V' ->] : exists V', resolve_V P T V = VMatrix V'.
    by case: V V_ok => //= [|V'] _; [exists (eye P (rows T)) | exists V'].
  case: (rows T != rows V') => //; case: (cols T != rank V') => //.
  case: (~~ _) => //; by case: (row_join T V').
Qed.

(** C4. When the row counts differ the run is a [ValueError] with an
    empty trace, so none of the three checks has started and no boolean
    is returned; when they agree no [ValueError] is raised. *)
Theorem dimension_mismatch (T V : Matrix) (v : Z) :
  (rows T <> rows V ->
     basis_of P (VMatrix T) (VMatrix V) v
     = ([::], Raise (ValueError "T and V must have the same number of rows")))
  /\ (rows T = rows V ->
     forall msg, result (basis_of P (VMatrix T) (VMatrix V) v) <> Raise (ValueError msg)).
Proof.
split.
- by move=> /eqP ne_rows; unfold_run; rewrite ne_rows.
- move=> /eqP eq_rows msg; rewrite result_basis_of /decision /checks /= eq_rows /=.
  case: (cols T != rank V) => //; case: (~~ _) => //; by case: (row_join T V).
Qed.

(** C5. Two runs on the same [T] and [V] that differ only in the
    verbosity level have the same outcome: the same boolean, or the same
    exception. *)
Theorem verbosity_noninterference (T V : value) (v1 v2 : Z) :
  result (basis_of P T V v1) = result (basis_of P T V v2).
Proof. by rewrite !result_basis_of. Qed.

(** C6. With matching row counts and [cols T <> rank V] the run returns
    [False], and the only provider computation in its trace is [rank V]:
    the independence test is never called and [T | V] is never formed. *)
Theorem cardinality_short_circuit (T V : Matrix) (v : Z) :
  rows T = rows V -> cols T <> rank V ->
  result (basis_of P (VMatrix T) (VMatrix V) v) = Return false
  /\ calls (trace (basis_of P (VMatrix T) (VMatrix V) v)) = [:: CallRank V].
Proof.
move=> /eqP eq_rows /eqP ne_cols; unfold_run.
by rewrite eq_rows /= ne_cols /=; case: (1 <=? v)%Z.
Qed.

End AnyProvider.

(* ===================================================================== *)
(** ** What a run prints and computes, over any provider *)
(* ===================================================================== *)

(** Splits a run on the comparisons behind the tests of [basis_of]. *)
Ltac split_tests T V :=
  (case: (rows T == rows V) => //=);
  (case: (cols T == rank V) => //=);
  (case: (is_linearly_independent T true) => //=);
  (case: (row_join T V) => [?|] //=).

Section Runs.

Variable P : provider.

Local Notation Matrix := (Matrix P).
Local Notation value := (value Matrix).
Local Open Scope string_scope.

(** Below the first threshold the second is not reached either. *)
Lemma quiet_not_detailed (v : Z) : (1 <=? v)%Z = false -> (2 <=? v)%Z = false.
Proof. by move=> /Z.leb_gt lt1; apply/Z.leb_gt; lia. Qed.

(** X1. Below verbosity 1 a run prints nothing, whatever its arguments
    and its outcome. *)
Theorem silent_below_1 (T V : value) (v : Z) :
  (v < 1)%Z -> output (trace (basis_of P T V v)) = [::].
Proof.
move=> /Z.leb_gt quiet; unfold_run; rewrite (quiet_not_detailed quiet) quiet.
case: T => [|z|s|T] //=.
by case: V => [|z|s|V] //=; [set V := eye P _|]; split_checks T V;
   case: (rank _ == rank V).
Qed.

Lemma detailed_not_quiet (v : Z) : (2 <=? v)%Z -> (1 <=? v)%Z.
Proof. by move=> /Z.leb_le le2; apply/Z.leb_le; lia. Qed.

(** X2. [T.rref()] is computed once in a run that reaches the
    independence check at verbosity 2 or more, and not at all in any
    other run on two matrices. *)
Theorem rref_when_detailed (T V : Matrix) (v : Z) :
  count is_rref_call (trace (basis_of P (VMatrix T) (VMatrix V) v))
  = (2 <=? v)%Z && (rows T == rows V) && (cols T == rank V) :> nat.
Proof.
unfold_run; case detailed: (2 <=? v)%Z.
  by rewrite (detailed_not_quiet detailed); split_tests T V;
     case: (rank _ == rank V).
by case: (1 <=? v)%Z; split_tests T V; case: (rank _ == rank V).
Qed.

(** X3. A run depends on the verbosity through its level only: 2 and
    above, 1, or 0 and below. *)
Theorem verbosity_levels (T V : value) (v : Z) :
  basis_of P T V v = basis_of P T V (level v).
Proof.
have summary : (1 <=? level v)%Z = (1 <=? v)%Z.
  rewrite /level; case detailed: (2 <=? v)%Z; last by case: (1 <=? v)%Z.
  by rewrite (detailed_not_quiet detailed).
have details : (2 <=? level v)%Z = (2 <=? v)%Z.
  by rewrite /level; case: (2 <=? v)%Z => //; case: (1 <=? v)%Z.
by rewrite /basis_of summary details.
Qed.

(** X4. A run with [V] omitted is the run on the identity matrix of
    size [rows T], after the call of [Matrix.eye] and, from verbosity 1,
    the line that announces the default. *)
Theorem omitted_V_run (T : Matrix) (v : Z) :
  basis_of P (VMatrix T) VNone v
  = let: (t, r) := basis_of P (VMatrix T) (VMatrix (eye P (rows T))) v in
    (CallEye (rows T)
       :: (if (1 <=? v)%Z
           then [:: Printed [:: Txt "✓ Vector space V not provided, defaulting to R^";
                               Num (rows T)]]
           else [::])
       ++ t, r).
Proof.
unfold_run; set V := eye P _.
by case: (1 <=? v)%Z; case: (2 <=? v)%Z; split_tests T V;
   case: (rank _ == rank V).
Qed.

(** X5. In a run that reaches the spanning check the provider is asked,
    in this order: [rank V], the independence of the columns of [T],
    [T.rref()] from verbosity 2, [T.row_join(V)], the rank of the result,
    and [rank T] from verbosity 2. *)
Theorem provider_calls_in_order (T V T_V : Matrix) (v : Z) :
  rows T = rows V -> cols T = rank V -> is_linearly_independent T true ->
  row_join T V = Some T_V ->
  calls (trace (basis_of P (VMatrix T) (VMatrix V) v))
  = ([:: CallRank V; CallIndep T true]
     ++ (if (2 <=? v)%Z then [:: CallRref T] else [::])
     ++ [:: CallRowJoin T V; CallRank T_V]
     ++ (if (2 <=? v)%Z then [:: CallRank T] else [::]))%SEQ.
Proof.
move=> /eqP eq_rows /eqP eq_cols indep join; unfold_run.
rewrite eq_rows eq_cols indep join /=.
case detailed: (2 <=? v)%Z; first rewrite (detailed_not_quiet detailed) /=.
  by case: (rank _ == rank V).
by case: (1 <=? v)%Z; case: (rank _ == rank V).
Qed.

(** X6. When the count is right and the columns of [T] are dependent
    the run returns [False] after the independence test: [row_join] is
    never called and no rank but that of [V] is computed. *)
Theorem independence_short_circuit (T V : Matrix) (v : Z) :
  rows T = rows V -> cols T = rank V -> is_linearly_independent T true = false ->
  result (basis_of P (VMatrix T) (VMatrix V) v) = Return false
  /\ calls (trace (basis_of P (VMatrix T) (VMatrix V) v))
     = ([:: CallRank V; CallIndep T true]
        ++ (if (2 <=? v)%Z then [:: CallRref T] else [::]))%SEQ.
Proof.
move=> /eqP eq_rows /eqP eq_cols dep; unfold_run.
rewrite eq_rows eq_cols dep /=.
case detailed: (2 <=? v)%Z; first by rewrite (detailed_not_quiet detailed).
by case: (1 <=? v)%Z.
Qed.

(** X7. From verbosity 1 the closing line of the output agrees with the
    result: the line that says [T] is a basis is printed exactly when the
    run returns [True], the line that says it is not exactly when the run
    returns [False]; a run that raises prints neither. *)
Theorem verdict_line_matches_result (T V : value) (v : Z) :
  has (prints_line "✓ Result: T IS a basis for V") (trace (basis_of P T V v))
  = (1 <=? v)%Z && returns true (basis_of P T V v)
  /\ has (prints_line "Result: T is NOT a basis for V") (trace (basis_of P T V v))
     = (1 <=? v)%Z && returns false (basis_of P T V v).
Proof.
rewrite /returns; unfold_run.
case: T => [|z|s|T] /=; try by rewrite !andbF.
case: V => [|z|s|V] /=; try (by rewrite !andbF); [set V := eye P _|];
  case: (1 <=? v)%Z; case: (2 <=? v)%Z => /=; split_tests T V;
  by case: (rank _ == rank V).
Qed.

(** X8. A basis of [V] has as many vectors as any other: when a run on
    [T] returns [True], a run on a matrix with as many rows and another
    number of columns returns [False]. *)
Theorem other_count_rejected (T T' V : Matrix) (v v' : Z) :
  result (basis_of P (VMatrix T) (VMatrix V) v) = Return true ->
  rows T' = rows T -> cols T' <> cols T ->
  result (basis_of P (VMatrix T') (VMatrix V) v') = Return false.
Proof.
move=> + eq_rows /eqP ne_cols; rewrite !result_basis_of /= /checks eq_rows.
case: (rows T != rows V) => //; case: (cols T =P rank V) => [<- | //] _.
by rewrite ne_cols.
Qed.

End Runs.

(* ===================================================================== *)
(** ** Properties of [basis_of] over matrices on a field *)
(* ===================================================================== *)

Import FieldMatrix.

Section FieldProvider.

Variable F : fieldType.

Local Notation P := (field_provider F).
Local Notation matrix := (matrix F).
Local Notation value := (value matrix).
Local Notation rows := (@rows P).
Local Notation cols := (@cols P).
Local Notation rank := (@rank P).
Local Notation row_join := (@row_join P).
Local Notation eye := (@eye P).
Local Notation is_linearly_independent := (@is_linearly_independent P).
Local Open Scope ring_scope.

(** *** Facts of linear algebra about the provider *)

Lemma mx_rankE (M : matrix) : mx_rank M = \rank (entries M).
Proof. by rewrite /mx_rank mxrank_tr. Qed.

Lemma mx_row_joinE m n1 n2 (A : 'M[F]_(m, n1)) (B : 'M[F]_(m, n2)) :
  mx_row_join (Mx A) (Mx B) = Some (Mx (row_mx A B)).
Proof.
rewrite /mx_row_join /=; case: eqP => // e.
by rewrite (eq_axiomK e) castmx_id.
Qed.

Lemma row_join_defined (A B : matrix) :
  rows A = rows B -> exists C, row_join A B = Some C.
Proof.
case: A B => [m n1 A] [m' n2 B] /= eq_m; case: m' / eq_m B => B.
by exists (Mx (row_mx A B)); exact: mx_row_joinE.
Qed.

(** The independence test is what its name says: no combination of the
    columns vanishes but the trivial one. *)
Lemma columns_independentP m n (A : 'M[F]_(m, n)) :
  reflect (forall x : 'cV[F]_n, A *m x = 0 -> x = 0)
          (mx_is_linearly_independent (Mx A) true).
Proof.
rewrite /mx_is_linearly_independent /= kermx_eq0.
apply: (iffP idP) => [free_A x Ax0 | inj_A].
  apply: trmx_inj; apply: (row_free_inj free_A).
  by rewrite -!trmx_mul Ax0 mulmx0.
rewrite -kermx_eq0; apply/eqP/row_matrixP => i; rewrite row0.
apply: trmx_inj; rewrite trmx0; apply: inj_A.
by apply: trmx_inj; rewrite trmx_mul trmxK -row_mul mulmx_ker row0 trmx0.
Qed.

(** Independent columns are as many as the rank. *)
Lemma independent_rank (M : matrix) :
  is_linearly_independent M true = (rank M == cols M).
Proof. by rewrite /= /mx_rank kermx_eq0. Qed.

(** The column space of [A | B] is the sum of the two column spaces. *)
Lemma colspace_row_mx m n1 n2 (A : 'M[F]_(m, n1)) (B : 'M[F]_(m, n2)) :
  ((row_mx A B)^T :=: A^T + B^T)%MS.
Proof. by rewrite tr_row_mx; apply: eqmx_sym; apply: addsmxE. Qed.

(** Exchanging two columns leaves the column space as it is. *)
Lemma colspace_xcol m n (i j : 'I_n) (A : 'M[F]_(m, n)) :
  ((xcol i j A)^T :=: A^T)%MS.
Proof.
by rewrite tr_xcol xrowE; apply: eqmxMfull; rewrite row_full_unit unitmx_perm.
Qed.

Lemma rank_col_swap (M : matrix) (i j : 'I_(cols M)) :
  rank (col_swap i j) = rank M.
Proof. by rewrite /= /mx_rank /col_swap /= colspace_xcol. Qed.

Lemma row_join_col_swap (T V : matrix) (i j : 'I_(cols T)) :
  rows T = rows V ->
  exists T_V T_V',
    [/\ row_join T V = Some T_V, row_join (col_swap i j) V = Some T_V'
       & rank T_V' = rank T_V].
Proof.
case: T V i j => [m n1 A] [m' n2 B] /= i j eq_m; case: m' / eq_m B => B.
exists (Mx (row_mx A B)), (Mx (row_mx (xcol i j A) B)).
split; [exact: mx_row_joinE | exact: mx_row_joinE |].
rewrite /mx_rank /= !colspace_row_mx.
by apply: eqmx_rank; apply/eqmxP/adds_eqmx => //; apply: colspace_xcol.
Qed.

Lemma rank_eye (n : nat) : rank (eye n) = n.
Proof. by rewrite /= /mx_rank /= trmx1 mxrank1. Qed.

Lemma row_join_eye (n : nat) :
  exists2 I_I, row_join (eye n) (eye n) = Some I_I & rank I_I = n.
Proof.
exists (Mx (row_mx (1%:M : 'M[F]_n) (1%:M : 'M[F]_n))); first exact: mx_row_joinE.
rewrite /= /mx_rank /= colspace_row_mx trmx1.
by rewrite (addsmx_idPl (submx_refl _)) mxrank1.
Qed.

(** *** The spec's verifier and the source's *)

Lemma decision_is_basis (T V : value) : decision P T V = is_basis P T V.
Proof.
rewrite /decision /is_basis /resolve_V /checks.
case: T => // T; case: (match V with VNone => _ | _ => _ end) => // V'.
rewrite independent_rank; case: (rows T != rows V') => //.
case: (cols T != rank V') => //; case: (rank T != cols T) => //.
by case: (row_join T V') => // T_V; case: (rank T_V == rank V').
Qed.

(** C1. For matrices [T] and [V] with as many rows, [T.row_join(V)] is
    some [T | V], and [basis_of] returns [True] exactly when
    [cols T = rank V], [rank T = cols T] and [rank (T | V) = rank V]. *)
Theorem basis_of_iff (T V : matrix) (v : Z) :
  rows T = rows V ->
  exists2 T_V, row_join T V = Some T_V
    & result (basis_of P (VMatrix T) (VMatrix V) v) = Return true
      <-> cols T = rank V /\ rank T = cols T /\ rank T_V = rank V.
Proof.
move=> eq_rows; have [T_V join] := row_join_defined eq_rows.
exists T_V; rewrite // result_basis_of decision_is_basis /is_basis.
move/eqP: eq_rows => ->; rewrite join /=.
case: (cols T =P rank V) => [eq_cols | ne_cols] /=; last by split=> [|[]].
case: (rank T =P cols T) => [eq_rank | ne_rank] /=; last by split=> [|[_ []]].
case: (rank T_V =P rank V) => [eq_span | ne_span] /=; first by split.
by split=> [|[_ [_]]].
Qed.

(** C7. The run of the source, which asks the provider whether the
    columns of [T] are independent, has the outcome of the spec's
    verifier, which compares [rank T] with [cols T] instead. *)
Theorem independence_by_rank (T V : value) (v : Z) :
  result (basis_of P T V v) = is_basis P T V.
Proof. by rewrite result_basis_of decision_is_basis. Qed.

(** C8. Exchanging columns [i] and [j] of [T] leaves the outcome as it
    is, for every [V] (supplied or omitted) and every verbosity. *)
Theorem column_swap_invariant (T : matrix) (i j : 'I_(cols T)) (V : value) (v : Z) :
  result (basis_of P (VMatrix (col_swap i j)) V v)
  = result (basis_of P (VMatrix T) V v).
Proof.
rewrite !result_basis_of !decision_is_basis /is_basis rank_col_swap.
rewrite -[rows (col_swap i j)]/(rows T) -[cols (col_swap i j)]/(cols T).
case: (match V with VNone => _ | _ => _ end) => // V'.
case: (rows T =P rows V') => [eq_rows | //].
by have [T_V [T_V' [-> -> ->]]] := row_join_col_swap i j eq_rows.
Qed.

(** The identity matrix of any size passes the three checks against the
    default space. *)
Lemma is_basis_eye (n : nat) : is_basis P (VMatrix (eye n)) VNone = Return true.
Proof.
rewrite /is_basis -[rows (eye n)]/n -[cols (eye n)]/n rank_eye !eqxx.
by have [I_I -> ->] := row_join_eye n; rewrite eqxx.
Qed.

(** C9. With [T] the 2x2 identity matrix and [V] omitted, [basis_of]
    returns [True]. *)
Theorem standard_basis_R2 (v : Z) :
  result (basis_of P (VMatrix (Mx (1%:M : 'M[F]_2))) VNone v) = Return true.
Proof. by rewrite result_basis_of decision_is_basis (is_basis_eye 2). Qed.

(** A column listed twice is a dependent pair. *)
Lemma duplicate_columns_dependent m (c : 'cV[F]_m) :
  is_linearly_independent (Mx (row_mx c c)) true = false.
Proof.
apply/negbTE/negP => /columns_independentP indep.
pose x : 'cV[F]_(1 + 1) := col_mx 1%:M (- 1%:M).
have /indep /eqP : row_mx c c *m x = 0.
  by rewrite mul_row_col mulmxN !mulmx1 GRing.subrr.
rewrite col_mx_eq0 => /andP [/eqP /matrixP /(_ ord0 ord0) /eqP].
by rewrite !mxE eqxx GRing.oner_eq0.
Qed.

(** Spec 8, scenario 2: two copies of one column of the plane, [V]
    omitted: the count is right and the independence check fails. *)
Example duplicate_columns_rejected (c : 'cV[F]_2) (v : Z) :
  result (basis_of P (VMatrix (Mx (row_mx c c))) VNone v) = Return false.
Proof.
rewrite result_basis_of /decision /checks /resolve_V rank_eye.
by rewrite duplicate_columns_dependent.
Qed.

(** C10. With [T] a matrix and [V] omitted the run raises nothing and
    returns a boolean: the default [V] is a matrix with as many rows as
    [T], which [row_join] accepts. *)
Theorem omitted_V_returns (T : matrix) (v : Z) :
  exists b : bool, result (basis_of P (VMatrix T) VNone v) = Return b.
Proof.
rewrite result_basis_of decision_is_basis /is_basis.
rewrite -[rows (eye _)]/(rows T) eqxx.
case: (cols T != rank _); first by exists false.
case: (rank T != cols T); first by exists false.
have [T_V ->] := @row_join_defined T (eye (rows T)) (erefl _).
by case: (rank T_V != rank _); [exists false | exists true].
Qed.

End FieldProvider.

(* ===================================================================== *)
(** ** The verdict and the column spaces *)
(* ===================================================================== *)

Section ColumnSpaces.

Variable F : fieldType.

Local Notation P := (field_provider F).
Local Notation matrix := (matrix F).
Local Notation value := (value matrix).
Local Notation rows := (@rows P).
Local Notation cols := (@cols P).
Local Notation rank := (@rank P).
Local Notation is_linearly_independent := (@is_linearly_independent P).
Local Open Scope ring_scope.

(** The spec's verifier on two matrices with as many rows, as one
    boolean. *)
Lemma is_basis_checks m n1 n2 (A : 'M[F]_(m, n1)) (B : 'M[F]_(m, n2)) :
  is_basis P (VMatrix (Mx A)) (VMatrix (Mx B))
  = Return [&& n1 == \rank B^T, \rank A^T == n1
             & \rank (A^T + B^T)%MS == \rank B^T].
Proof.
rewrite /is_basis [row_join _ _]mx_row_joinE /= eqxx /= /mx_rank /=.
rewrite colspace_row_mx.
case: (n1 == _) => //=; case: (\rank A^T == n1) => //=.
by case: (\rank _ == _).
Qed.

(** The count and the two ranks say: independent columns, same span. *)
Lemma checks_colspace m n1 n2 (A : 'M[F]_(m, n1)) (B : 'M[F]_(m, n2)) :
  [&& n1 == \rank B^T, \rank A^T == n1 & \rank (A^T + B^T)%MS == \rank B^T]
  = (\rank A^T == n1) && (A^T == B^T)%MS.
Proof.
apply/and3P/andP => [[/eqP count /eqP free /eqP span] | [/eqP free /eqmxP same]].
  split; first exact/eqP.
  have subB : (A^T + B^T <= B^T)%MS.
    by rewrite -(geq_leqif (mxrank_leqif_sup (addsmxSr _ _))) span.
  have subA : (A^T + B^T <= A^T)%MS.
    by rewrite -(geq_leqif (mxrank_leqif_sup (addsmxSl _ _))) span free -count.
  apply/andP; split.
    exact: submx_trans (addsmxSl _ _) subB.
  exact: submx_trans (addsmxSr _ _) subA.
split; [by rewrite -same free | exact/eqP |].
by rewrite (addsmx_idPr _) // same.
Qed.

(** X9. On two matrices with as many rows, [basis_of] returns whether
    the columns of [T] are linearly independent and span the space that
    the columns of [V] span. *)
Theorem basis_of_column_spaces m n1 n2
    (A : 'M[F]_(m, n1)) (B : 'M[F]_(m, n2)) (v : Z) :
  result (basis_of P (VMatrix (Mx A)) (VMatrix (Mx B)) v)
  = Return (is_linearly_independent (Mx A) true && (A^T == B^T)%MS).
Proof.
rewrite result_basis_of decision_is_basis is_basis_checks checks_colspace.
by rewrite independent_rank.
Qed.

(** The outcome is that of the run on any matrix with as many columns
    as [T] and the same column space. *)
Lemma is_basis_same_span_T m n1 (A A' : 'M[F]_(m, n1)) (V : value) :
  (A'^T == A^T)%MS ->
  is_basis P (VMatrix (Mx A')) V = is_basis P (VMatrix (Mx A)) V.
Proof.
move=> /eqmxP same; rewrite /is_basis.
rewrite -[rows (Mx A')]/(rows (Mx A)) -[cols (Mx A')]/(cols (Mx A)).
case: (match V with VNone => _ | _ => _ end) => // -[m' n2 B].
case: (rows (Mx A) =P rows (Mx B)) => [/= eq_m | //]; case: m' / eq_m B => B.
rewrite !mx_row_joinE /= /mx_rank /= !colspace_row_mx.
by rewrite same (eqmx_rank (introT eqmxP (adds_eqmx same (eqmx_refl _)))).
Qed.

(** X10. Multiplying [T] on the right by an invertible matrix (columns
    exchanged, scaled by a nonzero factor, added to one another) leaves
    the outcome as it is. *)
Theorem column_operations_invariant m n1 (A : 'M[F]_(m, n1)) (U : 'M[F]_n1)
    (V : value) (v : Z) :
  U \in unitmx ->
  result (basis_of P (VMatrix (Mx (A *m U))) V v)
  = result (basis_of P (VMatrix (Mx A)) V v).
Proof.
move=> unit_U; rewrite !result_basis_of !decision_is_basis.
apply: is_basis_same_span_T; apply/eqmxP; rewrite trmx_mul.
by apply: eqmxMfull; rewrite row_full_unit unitmx_tr.
Qed.

(** X11. The outcome depends on [V] through the space its columns span
    only, not on how many columns spell it out. *)
Theorem same_span_V_invariant m n2 n3
    (B : 'M[F]_(m, n2)) (B' : 'M[F]_(m, n3)) (T : matrix) (v : Z) :
  (B'^T == B^T)%MS ->
  result (basis_of P (VMatrix T) (VMatrix (Mx B')) v)
  = result (basis_of P (VMatrix T) (VMatrix (Mx B)) v).
Proof.
move=> /eqmxP same; rewrite !result_basis_of !decision_is_basis.
case: T => m' n1 A; rewrite /is_basis.
rewrite -[rows (Mx B')]/(rows (Mx B)).
case: (rows (Mx A) =P rows (Mx B)) => [/= eq_m | //]; case: m / eq_m B B' same.
move=> B B' same.
rewrite !mx_row_joinE /= /mx_rank /= !colspace_row_mx.
by rewrite same (eqmx_rank (introT eqmxP (adds_eqmx (eqmx_refl _) same))).
Qed.

(** X12. With [V] omitted [basis_of] returns whether [T] is square with
    linearly independent columns: the spanning check cannot fail. *)
Theorem omitted_V_square_independent (T : matrix) (v : Z) :
  result (basis_of P (VMatrix T) VNone v)
  = Return ((cols T == rows T) && is_linearly_independent T true).
Proof.
rewrite result_basis_of decision_is_basis; case: T => m n A.
rewrite -[is_basis _ _ _]/(is_basis P (VMatrix (Mx A)) (VMatrix (Mx 1%:M))).
rewrite is_basis_checks independent_rank trmx1 mxrank1 /= /mx_rank /=.
have -> : \rank (A^T + 1%:M)%MS = m.
  apply/eqP; rewrite eqn_leq rank_leq_col /=.
  by rewrite -{1}(mxrank1 F m) mxrankS // addsmxSr.
by rewrite eqxx andbT.
Qed.

(** X13. Against the zero space (a [V] of zeros) [basis_of] returns
    whether [T] has no columns at all. *)
Theorem zero_space_basis_is_empty m n1 n2 (A : 'M[F]_(m, n1)) (v : Z) :
  result (basis_of P (VMatrix (Mx A)) (VMatrix (Mx (0 : 'M[F]_(m, n2)))) v)
  = Return (n1 == 0%nat).
Proof.
rewrite result_basis_of decision_is_basis is_basis_checks trmx0 mxrank0.
rewrite addsmx0; case: (n1 =P 0%nat) => [n1_0 | //] /=.
have /eqP -> : \rank A^T == 0%nat by rewrite -leqn0 -[leqRHS]n1_0 rank_leq_row.
by rewrite n1_0.
Qed.

(** X14. A run on two matrices returns a boolean exactly when they have
    as many rows. *)
Theorem returns_iff_same_rows (T V : matrix) (v : Z) :
  (exists b, result (basis_of P (VMatrix T) (VMatrix V) v) = Return b)
  <-> rows T = rows V.
Proof.
rewrite result_basis_of decision_is_basis.
case: T V => [m n1 A] [m' n2 B]; split=> [[b] | eq_m].
  by rewrite /is_basis; case: (rows (Mx A) =P rows (Mx B)).
have {}eq_m : m = m' := eq_m.
by case: m' / eq_m B => B; rewrite is_basis_checks; eexists.
Qed.

End ColumnSpaces.

(* ===================================================================== *)
(** ** The theorems at work on rational matrices *)
(* ===================================================================== *)

Section Instances.

Local Open Scope ring_scope.

Local Notation Q := (field_provider rat).

(** The 2x2 and 3x3 identity matrices, and the single column (1, 0). *)
Definition I2 : matrix rat := mx_eye rat 2.
Definition I3 : matrix rat := mx_eye rat 3.
Definition e1 : matrix rat := Mx (delta_mx ord0 ord0 : 'M[rat]_(2, 1)).

(** C3 at an integer in place of [T], at a string in place of [V], and
    at two identity matrices. *)
Lemma type_errors_witness :
  [/\ basis_of Q (VInt 3) VNone 0
       = ([::], Raise (TypeError "T must be a Matrix object")),
      basis_of Q (VMatrix I2) (VStr "R2") 2
       = ([::], Raise (TypeError "V must be a Matrix object"))
    & forall msg, result (basis_of Q (VMatrix I2) (VMatrix I2) 1)
                  <> Raise (TypeError msg)].
Proof.
split.
- exact: (proj1 (@type_errors Q (VInt 3) VNone 0) isT).
- exact: (proj1 (proj2 (@type_errors Q (VMatrix I2) (VStr "R2") 2)) isT isT isT).
- exact: (proj2 (proj2 (@type_errors Q (VMatrix I2) (VMatrix I2) 1)) isT isT).
Defined.

(** C4 at a 2x2 against a 3x3 matrix, and at two 2x2 matrices. *)
Lemma dimension_mismatch_witness :
  basis_of Q (VMatrix I2) (VMatrix I3) 1
  = ([::], Raise (ValueError "T and V must have the same number of rows"))
  /\ forall msg, result (basis_of Q (VMatrix I2) (VMatrix I2) 1)
                 <> Raise (ValueError msg).
Proof.
split.
- by apply: (proj1 (@dimension_mismatch Q I2 I3 1)).
- by apply: (proj2 (@dimension_mismatch Q I2 I2 1)).
Defined.

(** C6 at the single column (1, 0) against the plane: one vector where
    two are needed. *)
Lemma cardinality_short_circuit_witness :
  result (basis_of Q (VMatrix e1) (VMatrix I2) 1) = Return false
  /\ calls (trace (basis_of Q (VMatrix e1) (VMatrix I2) 1)) = [:: CallRank I2].
Proof.
apply: (@cardinality_short_circuit Q); first by [].
by rewrite [rank _]rank_eye.
Defined.

(** C1 at the standard basis of the plane. *)
Lemma basis_of_iff_witness :
  exists2 T_V, @row_join Q I2 I2 = Some T_V
    & result (basis_of Q (VMatrix I2) (VMatrix I2) 0) = Return true
      <-> @cols Q I2 = @rank Q I2 /\ @rank Q I2 = @cols Q I2
          /\ @rank Q T_V = @rank Q I2.
Proof. exact: (@basis_of_iff rat I2 I2 0 (erefl _)). Defined.

End Instances.

(* ===================================================================== *)
(** ** More runs on rational matrices *)
(* ===================================================================== *)

Section MoreInstances.

Local Open Scope ring_scope.

Local Notation Q := (field_provider rat).

(** The column (1, 0) listed twice, and the identity beside itself. *)
Definition e1_e1 : matrix rat :=
  Mx (row_mx (delta_mx ord0 ord0 : 'cV[rat]_2) (delta_mx ord0 ord0 : 'cV[rat]_2)).
Definition I2_I2 : matrix rat :=
  Mx (row_mx (1%:M : 'M[rat]_2) (1%:M : 'M[rat]_2)).

Lemma I2_independent : @is_linearly_independent Q I2 true.
Proof. by rewrite independent_rank [X in X == _]rank_eye. Qed.

Lemma I2_is_basis (v : Z) :
  result (basis_of Q (VMatrix I2) (VMatrix I2) v) = Return true.
Proof.
rewrite result_basis_of decision_is_basis; exact: (is_basis_eye rat 2).
Qed.

(** X1 at the identity with nothing asked. *)
Lemma silent_below_1_witness :
  output (trace (basis_of Q (VMatrix I2) VNone 0)) = [::].
Proof. exact: (@silent_below_1 Q (VMatrix I2) VNone 0 (erefl _)). Defined.

(** X5 at the identity against itself, with the details asked. *)
Lemma provider_calls_in_order_witness :
  calls (trace (basis_of Q (VMatrix I2) (VMatrix I2) 2))
  = [:: CallRank I2; CallIndep I2 true; CallRref I2; CallRowJoin I2 I2;
        CallRank I2_I2; CallRank I2].
Proof.
apply: (@provider_calls_in_order Q I2 I2 I2_I2 2) => //.
- by rewrite [RHS]rank_eye.
- exact: I2_independent.
- exact: mx_row_joinE.
Defined.

(** X6 at the column (1, 0) listed twice. *)
Lemma independence_short_circuit_witness :
  result (basis_of Q (VMatrix e1_e1) (VMatrix I2) 1) = Return false
  /\ calls (trace (basis_of Q (VMatrix e1_e1) (VMatrix I2) 1))
     = [:: CallRank I2; CallIndep e1_e1 true].
Proof.
apply: (@independence_short_circuit Q e1_e1 I2 1) => //.
- by rewrite [RHS]rank_eye.
- exact: duplicate_columns_dependent.
Defined.

(** X8 at the identity, a basis of the plane, and the single column
    (1, 0). *)
Lemma other_count_rejected_witness :
  result (basis_of Q (VMatrix e1) (VMatrix I2) 0) = Return false.
Proof.
by apply: (@other_count_rejected Q I2 e1 I2 0 0 (I2_is_basis 0)).
Defined.

(** X10 at the identity with both columns doubled. *)
Lemma column_operations_invariant_witness :
  result (basis_of Q (VMatrix (Mx ((1%:M : 'M[rat]_2) *m 2%:M))) VNone 0)
  = result (basis_of Q (VMatrix I2) VNone 0).
Proof.
apply: column_operations_invariant.
by rewrite unitmxE det_scalar GRing.unitfE.
Defined.

(** X11 at the plane spelled with four columns in place of two. *)
Lemma same_span_V_invariant_witness :
  result (basis_of Q (VMatrix I2) (VMatrix I2_I2) 0)
  = result (basis_of Q (VMatrix I2) (VMatrix I2) 0).
Proof.
apply: same_span_V_invariant; apply/eqmxP.
apply: eqmx_trans (colspace_row_mx _ _) _.
by rewrite trmx1; apply/addsmx_idPl.
Defined.

(** X14 at the identity against itself. *)
Lemma returns_iff_same_rows_witness :
  exists b, result (basis_of Q (VMatrix I2) (VMatrix I2) 0) = Return b.
Proof. exact: (proj2 (returns_iff_same_rows I2 I2 0) (erefl _)). Defined.

End MoreInstances.
